(** * debug.py: the one-shot OAuth2 authorization script

    The script builds an [InstalledAppFlow] from [credentials.json], runs the
    local authorization server, prints the refresh token and saves the
    credential to [token.json].  Everything it calls lives outside the
    repository (google_auth_oauthlib, the builtins [print] and [open]), so the
    embedding is the script's own control flow over an explicit model of the
    process environment: the operating-system state the script can observe
    (standard output, files, open file objects), the library entry points as
    arbitrary state transformers, and the builtins with their Python
    semantics and an oracle saying which of them fails, how, and after how
    much of their output.

    The module body is [debug]; the [import] lines before it are [imports],
    and [debug_module] is the whole file. *)

From Stdlib Require Import ZArith.
From stdpp Require Import base strings list gmap.

Local Open Scope Z_scope.

(** ** Python data *)

(** A raised exception: its class name and its message. *)
Record PyExc : Type := mkExc { exc_type : string; exc_msg : string }.

(** How a call ends: it returns a value, raises, or blocks forever (the
    consent step waits for the browser callback without any timeout). *)
Inductive outcome (A : Type) : Type :=
| Return (a : A)
| Raise (e : PyExc)
| Block.
Arguments Return {A} a.
Arguments Raise {A} e.
Arguments Block {A}.

(** [str(x)] for a value that is a [str] or [None]. *)
Definition py_str (x : option string) : string :=
  match x with
  | Some s => s
  | None => "None"
  end.

Definition newline : string := String (Ascii.ascii_of_nat 10) EmptyString.

(** The text [print(a, b, ...)] sends to [sys.stdout]: the arguments separated
    by one space ([sep=' ']) and ended by a newline ([end='\n']). *)
Fixpoint join_sep (sep : string) (args : list string) : string :=
  match args with
  | [] => EmptyString
  | [a] => a
  | a :: rest => a +:+ sep +:+ join_sep sep rest
  end.

Definition print_text (args : list string) : string :=
  join_sep " " args +:+ newline.

(** [s[:n]]: the first [n] characters of [s], all of it when it is shorter. *)
Definition take_str (n : nat) (s : string) : string := String.substring 0 n s.

(** [s] is an initial part of [t]. *)
Definition is_prefix (s t : string) : Prop := exists rest, t = s +:+ rest.

(** Every character is in the 7-bit range. *)
Fixpoint is_ascii (s : string) : bool :=
  match s with
  | EmptyString => true
  | String c rest => (Ascii.nat_of_ascii c <? 128)%nat && is_ascii rest
  end.

(** ** The process environment *)

(** The plain text modes ['r'], ['w'] and ['a'] of [open]; the script uses
    ['w']. *)
Inductive open_mode : Type := ModeR | ModeW | ModeA.

(** The file object a call of [open] returns to the script. *)
Record handle : Type := mkHandle { h_id : nat; h_path : string; h_mode : open_mode }.

(** An open file as the interpreter keeps it: text written to it waits in
    its buffer until the file is flushed, which the script only does by
    closing it. *)
Record open_file : Type := mkOpenFile {
  of_path : string;
  of_mode : open_mode;
  of_buffer : string
}.

(** What the script can observe of the operating system: the text written
    to [sys.stdout] so far, the contents of the files by path (relative to
    the working directory; paths name distinct regular files), and the table
    of open file objects. *)
Record OS : Type := mkOS {
  stdout : string;
  files : gmap string string;
  handles : gmap nat open_file
}.

(** What distinguishes two launches of the script on the same machine. *)
Record Process : Type := mkProcess {
  argv : list string;
  environ : gmap string string
}.

(** ** The external library, as objects with their methods *)

(** [google.oauth2.credentials.Credentials]: the attribute the script reads
    and the result of the method it calls. *)
Record Credentials : Type := mkCredentials {
  refresh_token : option string;
  to_json : PyExc + string
}.

(** [google_auth_oauthlib.flow.InstalledAppFlow]: [run_local_server(port)]
    may do anything to the environment (it opens a port, launches a browser,
    prints a prompt) and may depend on the process. *)
Record Flow : Type := mkFlow {
  run_local_server : Process -> OS -> Z -> outcome Credentials * OS
}.

(** How a builtin fails: it raises or it never returns. *)
Inductive fault : Type :=
| Raises (e : PyExc)
| Blocks.

(** A failure of a builtin that emits text: how it fails, and how many
    characters of the text went out before it did. *)
Record failure : Type := mkFailure { f_how : fault; f_done : nat }.

Definition fault_outcome {A : Type} (f : fault) : outcome A :=
  match f with
  | Raises e => Raise e
  | Blocks => Block
  end.

(** A world fixes the library's class method and, for each builtin, whether
    the call fails for a reason of the environment (closed stream, encoding
    chosen by an environment variable, missing permission, full disk, a pipe
    nobody reads).  The builtins of the interpreter see the process, as the
    library does. *)
Record World : Type := mkWorld {
  from_client_secrets_file :
    Process -> OS -> string -> list string -> outcome Flow * OS;
  print_fault : Process -> string -> option failure;
  open_fault : Process -> string -> open_mode -> option fault;
  write_fault : Process -> string -> string -> option failure;
  close_fault : Process -> string -> option failure
}.

(** The call [x] raises [e] / never returns, after some part of its text. *)
Definition raises (x : option failure) (e : PyExc) : Prop :=
  exists n, x = Some (mkFailure (Raises e) n).

Definition hangs (x : option failure) : Prop :=
  exists n, x = Some (mkFailure Blocks n).

(** ** Instrumented state *)

(** One event per call the script makes, recorded when the call starts. *)
Inductive event : Type :=
| CallFromClientSecretsFile (path : string) (scopes : list string)
| CallRunLocalServer (port : Z)
| CallPrint (text : string)
| CallOpen (path : string) (mode : open_mode)
| CallToJson
| CallWrite (path : string) (data : string)
| CallClose (path : string).

Record State : Type := mkState { st_os : OS; st_trace : list event }.

(** ** The monad of script fragments: state plus exceptions *)

Definition M (A : Type) : Type := State -> outcome A * State.

Definition ret {A : Type} (a : A) : M A := fun s => (Return a, s).

Definition bind {A B : Type} (m : M A) (k : A -> M B) : M B := fun s =>
  match m s with
  | (Return a, s1) => k a s1
  | (Raise e, s1) => (Raise e, s1)
  | (Block, s1) => (Block, s1)
  end.

Declare Scope py_scope.
Delimit Scope py_scope with py.
Notation "'let!' x ':=' c 'in' k" := (bind c (fun x => k))
  (at level 10, x name, c at level 100, k at level 200) : py_scope.
Notation "c '>>' k" := (bind c (fun _ => k))
  (at level 65, right associativity) : py_scope.

Definition raise {A : Type} (e : PyExc) : M A := fun s => (Raise e, s).

Definition log (ev : event) : M unit := fun s =>
  (Return tt, mkState (st_os s) (st_trace s ++ [ev])).

(** Run a transformer of the environment, leaving the trace alone. *)
Definition lift_os {A : Type} (f : OS -> outcome A * OS) : M A := fun s =>
  let '(r, o) := f (st_os s) in (r, mkState o (st_trace s)).

Definition closed_file : PyExc :=
  mkExc "ValueError" "I/O operation on closed file.".
Definition not_writable : PyExc :=
  mkExc "io.UnsupportedOperation" "not writable".
Definition file_not_found (path : string) : PyExc :=
  mkExc "FileNotFoundError" path.

(** ** Builtins *)

Section Builtins.
Variable w : World.
Variable p : Process.

(** [print(a, b, ...)]: the whole text reaches [sys.stdout] when the call
    returns; when it fails, the part written before the failure stays. *)
Definition py_print (args : list string) : M unit :=
  let text := print_text args in
  (log (CallPrint text) >>
   lift_os (fun o =>
     match print_fault w p text with
     | Some f =>
         (fault_outcome (f_how f),
          mkOS (stdout o +:+ take_str (f_done f) text) (files o) (handles o))
     | None => (Return tt, mkOS (stdout o +:+ text) (files o) (handles o))
     end))%py.

(** [open(path, mode)]: ['w'] creates or truncates, ['a'] creates or
    keeps, ['r'] needs the file.  The new file object has an empty buffer. *)
Definition py_open (path : string) (mode : open_mode) : M handle :=
  (log (CallOpen path mode) >>
   lift_os (fun o =>
     match open_fault w p path mode with
     | Some f => (fault_outcome f, o)
     | None =>
         let h := mkHandle (fresh (dom (handles o))) path mode in
         let opened := <[h_id h := mkOpenFile path mode EmptyString]> (handles o) in
         match mode with
         | ModeW =>
             (Return h, mkOS (stdout o) (<[path := EmptyString]> (files o)) opened)
         | ModeA =>
             (Return h,
              mkOS (stdout o) (<[path := default EmptyString (files o !! path)]> (files o))
                   opened)
         | ModeR =>
             match files o !! path with
             | Some _ => (Return h, mkOS (stdout o) (files o) opened)
             | None => (Raise (file_not_found path), o)
             end
         end
     end))%py.

(** [f.write(data)]: the text goes to the buffer of the file object and the
    call returns the number of characters written; when the call fails, the
    part accepted before the failure stays in the buffer. *)
Definition py_write (f : handle) (data : string) : M nat :=
  (log (CallWrite (h_path f) data) >>
   lift_os (fun o =>
     match handles o !! h_id f with
     | None => (Raise closed_file, o)
     | Some file =>
         match of_mode file with
         | ModeR => (Raise not_writable, o)
         | _ =>
             let buffered (chunk : string) :=
               mkOS (stdout o) (files o)
                 (<[h_id f := mkOpenFile (of_path file) (of_mode file)
                                 (of_buffer file +:+ chunk)]> (handles o)) in
             match write_fault w p (of_path file) data with
             | Some fl =>
                 (fault_outcome (f_how fl), buffered (take_str (f_done fl) data))
             | None => (Return (String.length data), buffered data)
             end
         end
     end))%py.

(** [f.close()]: the buffer is flushed to the end of the file and the file
    object is released.  When the flush fails, the part flushed before the
    failure is in the file and the rest is lost; the file object is released
    all the same unless the call never returns.  Closing a closed file does
    nothing. *)
Definition py_close (f : handle) : M unit :=
  (log (CallClose (h_path f)) >>
   lift_os (fun o =>
     match handles o !! h_id f with
     | None => (Return tt, o)
     | Some file =>
         let flushed (chunk : string) :=
           <[of_path file := default EmptyString (files o !! of_path file) +:+ chunk]>
             (files o) in
         let released := delete (h_id f) (handles o) in
         match close_fault w p (of_path file) with
         | None => (Return tt, mkOS (stdout o) (flushed (of_buffer file)) released)
         | Some fl =>
             let part := take_str (f_done fl) (of_buffer file) in
             match f_how fl with
             | Raises e => (Raise e, mkOS (stdout o) (flushed part) released)
             | Blocks => (Block, mkOS (stdout o) (flushed part) (handles o))
             end
         end
     end))%py.

(** [with ctx as x: body]: the file's [__exit__] closes it and returns
    [None], so an exception of the body is re-raised after the close; an
    exception of the close itself takes its place.  A body that never
    returns never reaches the close. *)
Definition with_as {A : Type} (ctx : M handle) (body : handle -> M A) : M A :=
  fun s =>
    match ctx s with
    | (Return f, s1) =>
        match body f s1 with
        | (Return a, s2) =>
            match py_close f s2 with
            | (Return _, s3) => (Return a, s3)
            | (Raise e, s3) => (Raise e, s3)
            | (Block, s3) => (Block, s3)
            end
        | (Raise e, s2) =>
            match py_close f s2 with
            | (Return _, s3) => (Raise e, s3)
            | (Raise e', s3) => (Raise e', s3)
            | (Block, s3) => (Block, s3)
            end
        | (Block, s2) => (Block, s2)
        end
    | (Raise e, s1) => (Raise e, s1)
    | (Block, s1) => (Block, s1)
    end.
End Builtins.

(** ** Library calls *)

Section Library.
Variable w : World.
Variable p : Process.

(** [InstalledAppFlow.from_client_secrets_file(path, scopes)] *)
Definition call_from_client_secrets_file (path : string) (scopes : list string) : M Flow :=
  (log (CallFromClientSecretsFile path scopes) >>
   lift_os (fun o => from_client_secrets_file w p o path scopes))%py.

(** [flow.run_local_server(port=port)] *)
Definition call_run_local_server (flow : Flow) (port : Z) : M Credentials :=
  (log (CallRunLocalServer port) >>
   lift_os (fun o => run_local_server flow p o port))%py.

(** [creds.to_json()] *)
Definition call_to_json (creds : Credentials) : M string :=
  (log CallToJson >>
   match to_json creds with
   | inl e => raise e
   | inr s => ret s
   end)%py.
End Library.

(** ** The script *)

Definition SCOPES : list string := ["https://www.googleapis.com/auth/calendar"].

Section Script.
Variable w : World.
Variable p : Process.

(** The module body of debug.py, statement by statement. *)
Definition debug : M unit :=
  (let! flow := call_from_client_secrets_file w p "credentials.json" SCOPES in
   let! creds := call_run_local_server p flow 0 in
   py_print w p ["Refresh Token:"; py_str (refresh_token creds)] >>
   with_as w p (py_open w p "token.json" ModeW) (fun token =>
     let! json := call_to_json creds in
     py_write w p token json >> ret tt))%py.

(** One execution, from the environment [o] the process starts in. *)
Definition run (o : OS) : outcome unit * State := debug (mkState o []).
End Script.

(** The [with] statement of the script, as a fragment of its own. *)
Definition save_block (w : World) (p : Process) (creds : Credentials) : M unit :=
  with_as w p (py_open w p "token.json" ModeW) (fun token =>
    let! json := call_to_json creds in
    py_write w p token json >> ret tt)%py.

(** The line the script prints for a credential. *)
Definition refresh_line (creds : Credentials) : string :=
  print_text ["Refresh Token:"; py_str (refresh_token creds)].

(** The environment after a successful [print] of [text]. *)
Definition after_print (o : OS) (text : string) : OS :=
  mkOS (stdout o +:+ text) (files o) (handles o).

(** The environment while [token.json] is open with [buffer] waiting. *)
Definition while_open (o : OS) (buffer : string) : OS :=
  mkOS (stdout o) (<["token.json" := EmptyString]> (files o))
    (<[fresh (dom (handles o)) := mkOpenFile "token.json" ModeW buffer]> (handles o)).

(** The environment once [token.json] holds [data] and is closed again. *)
Definition after_save (o : OS) (data : string) : OS :=
  mkOS (stdout o) (<["token.json" := data]> (files o)) (handles o).

(** The environment the close of [token.json] leaves when [buffer] was
    waiting: all of it in the file, or the part flushed before the close
    failed. *)
Definition after_close (w : World) (p : Process) (o : OS) (buffer : string) : OS :=
  match close_fault w p "token.json" with
  | None => after_save o buffer
  | Some fl =>
      match f_how fl with
      | Raises _ => after_save o (take_str (f_done fl) buffer)
      | Blocks =>
          mkOS (stdout o) (<["token.json" := take_str (f_done fl) buffer]> (files o))
            (handles (while_open o buffer))
      end
  end.

(** What leaves the [with] statement when its body ended with [r]. *)
Definition closing (w : World) (p : Process) (r : outcome unit) : outcome unit :=
  match close_fault w p "token.json" with
  | Some fl => fault_outcome (f_how fl)
  | None => r
  end.

(** The authorization flow returns the credential object [creds], leaving
    the environment [o2]. *)
Definition flow_returns (w : World) (p : Process) (o : OS)
    (creds : Credentials) (o2 : OS) : Prop :=
  exists fl o1,
    from_client_secrets_file w p o "credentials.json" SCOPES = (Return fl, o1) /\
    run_local_server fl p o1 0 = (Return creds, o2).

(** The events of an execution in which every call returns. *)
Definition full_trace (creds : Credentials) (json : string) : list event :=
  [ CallFromClientSecretsFile "credentials.json" SCOPES;
    CallRunLocalServer 0;
    CallPrint (refresh_line creds);
    CallOpen "token.json" ModeW;
    CallToJson;
    CallWrite "token.json" json;
    CallClose "token.json" ].

(** ** The four steps of the script *)

Inductive step : Type :=
| StepConstructFlow
| StepRunLocalServer
| StepPrintRefreshToken
| StepWriteFile.

#[global] Instance step_eq_dec : EqDecision step.
Proof. solve_decision. Defined.

(** The step a call belongs to: the [with] statement and everything inside
    it is the fourth step. *)
Definition step_of (ev : event) : step :=
  match ev with
  | CallFromClientSecretsFile _ _ => StepConstructFlow
  | CallRunLocalServer _ => StepRunLocalServer
  | CallPrint _ => StepPrintRefreshToken
  | CallOpen _ _ | CallToJson | CallWrite _ _ | CallClose _ => StepWriteFile
  end.

(** The steps an execution went through, in order: the calls of a trace
    grouped by step (neighbouring calls of one step count once). *)
Fixpoint steps (tr : list event) : list step :=
  match tr with
  | [] => []
  | ev :: rest =>
      match steps rest with
      | [] => [step_of ev]
      | s :: later =>
          if decide (step_of ev = s) then s :: later else step_of ev :: s :: later
      end
  end.

Definition program : list step :=
  [StepConstructFlow; StepRunLocalServer; StepPrintRefreshToken; StepWriteFile].

(** ** Failing executions *)

(** [step_raises w p o e]: in the execution from [o], every call before some
    call returns and that call raises [e].  For a call inside the [with]
    body, [e] is what leaves the statement: the body's exception when the
    close succeeds, the exception of the close otherwise (the close is
    reached unless the write never returns). *)
Inductive step_raises (w : World) (p : Process) (o : OS) : PyExc -> Prop :=
| raises_construct e o1 :
    from_client_secrets_file w p o "credentials.json" SCOPES = (Raise e, o1) ->
    step_raises w p o e
| raises_run_local_server e fl o1 o2 :
    from_client_secrets_file w p o "credentials.json" SCOPES = (Return fl, o1) ->
    run_local_server fl p o1 0 = (Raise e, o2) ->
    step_raises w p o e
| raises_print e creds o2 :
    flow_returns w p o creds o2 ->
    raises (print_fault w p (refresh_line creds)) e ->
    step_raises w p o e
| raises_open e creds o2 :
    flow_returns w p o creds o2 ->
    print_fault w p (refresh_line creds) = None ->
    open_fault w p "token.json" ModeW = Some (Raises e) ->
    step_raises w p o e
| raises_to_json e creds o2 :
    flow_returns w p o creds o2 ->
    print_fault w p (refresh_line creds) = None ->
    open_fault w p "token.json" ModeW = None ->
    to_json creds = inl e ->
    close_fault w p "token.json" = None ->
    step_raises w p o e
| raises_write e creds o2 json :
    flow_returns w p o creds o2 ->
    print_fault w p (refresh_line creds) = None ->
    open_fault w p "token.json" ModeW = None ->
    to_json creds = inr json ->
    raises (write_fault w p "token.json" json) e ->
    close_fault w p "token.json" = None ->
    step_raises w p o e
| raises_close e creds o2 :
    flow_returns w p o creds o2 ->
    print_fault w p (refresh_line creds) = None ->
    open_fault w p "token.json" ModeW = None ->
    (forall json, to_json creds = inr json ->
                  ~ hangs (write_fault w p "token.json" json)) ->
    raises (close_fault w p "token.json") e ->
    step_raises w p o e.


(** ** Sample worlds *)

Definition sample_json : string := "{token: ya29.a0, refresh_token: 1//0gLq}".

Definition sample_creds : Credentials :=
  mkCredentials (Some "1//0gLq") (inr sample_json).

(** A credential issued without a refresh token. *)
Definition creds_without_refresh : Credentials :=
  mkCredentials None (inr "{token: ya29.a0, refresh_token: null}").

(** A credential whose serialization raises. *)
Definition unserializable_creds : Credentials :=
  mkCredentials (Some "1//0gLq")
    (inl (mkExc "TypeError" "Object of type bytes is not JSON serializable")).

(** A credential whose refresh token has a character outside ASCII (the
    two bytes of an accented letter). *)
Definition accented_token : string :=
  "1//0g" +:+ String (Ascii.ascii_of_nat 195) (String (Ascii.ascii_of_nat 169) EmptyString).

Definition accented_creds : Credentials :=
  mkCredentials (Some accented_token) (inr "{token: ya29.a0, refresh_token: 1//0g\u00e9}").

Definition prompt : string :=
  "Please visit this URL to authorize this application: https://accounts.google.com/o/oauth2/auth"
  +:+ newline.

(** A flow whose consent step prints the prompt and returns [creds]. *)
Definition granting_flow (creds : Credentials) : Flow :=
  mkFlow (fun _ o _ => (Return creds, after_print o prompt)).

(** A flow whose consent step is refused by the user. *)
Definition denied_flow : Flow :=
  mkFlow (fun _ o _ =>
    (Raise (mkExc "AccessDeniedError" "(access_denied)"), after_print o prompt)).

(** A flow whose consent step never hears back from the browser. *)
Definition waiting_flow : Flow :=
  mkFlow (fun _ o _ => (Block, after_print o prompt)).

(** The constructor reads the secrets file and fails when it is missing. *)
Definition read_secrets (fl : Flow) (_ : Process) (o : OS)
    (path : string) (_ : list string) : outcome Flow * OS :=
  match files o !! path with
  | Some _ => (Return fl, o)
  | None => (Raise (file_not_found path), o)
  end.

(** No builtin fails. *)
Definition quiet_world (fl : Flow) : World :=
  mkWorld (read_secrets fl) (fun _ _ => None) (fun _ _ _ => None) (fun _ _ _ => None)
    (fun _ _ => None).

(** The working directory is read-only: [open] for writing is refused. *)
Definition readonly_world (fl : Flow) : World :=
  mkWorld (read_secrets fl) (fun _ _ => None)
    (fun _ path _ => Some (Raises (mkExc "PermissionError" path)))
    (fun _ _ _ => None) (fun _ _ => None).

(** The disk is full: the write is buffered, the flush of the close fails
    and nothing reaches the file. *)
Definition full_disk_world (fl : Flow) : World :=
  mkWorld (read_secrets fl) (fun _ _ => None) (fun _ _ _ => None) (fun _ _ _ => None)
    (fun _ _ => Some (mkFailure (Raises (mkExc "OSError" "No space left on device")) 0)).

(** The device fails during the write, after eight characters. *)
Definition io_error_world (fl : Flow) : World :=
  mkWorld (read_secrets fl) (fun _ _ => None) (fun _ _ _ => None)
    (fun _ _ _ => Some (mkFailure (Raises (mkExc "OSError" "Input/output error")) 8))
    (fun _ _ => None).

(** [token.json] is a pipe nobody reads: [open] never returns. *)
Definition pipe_world (fl : Flow) : World :=
  mkWorld (read_secrets fl) (fun _ _ => None) (fun _ _ _ => Some Blocks)
    (fun _ _ _ => None) (fun _ _ => None).

(** The encoding of [sys.stdout] follows the environment variable
    PYTHONIOENCODING: under [ascii], printing a text with another character
    raises once the arguments before it are out (the label and the
    separator, fifteen characters). *)
Definition encoding_world (fl : Flow) : World :=
  mkWorld (read_secrets fl)
    (fun p text =>
       if decide (environ p !! "PYTHONIOENCODING" = Some "ascii")
       then if is_ascii text then None
            else Some (mkFailure
                         (Raises (mkExc "UnicodeEncodeError" "'ascii' codec can't encode characters"))
                         15)
       else None)
    (fun _ _ _ => None) (fun _ _ _ => None) (fun _ _ => None).

Definition sample_os : OS :=
  mkOS EmptyString
    (<["credentials.json" := "{installed: {client_id: 42.apps.googleusercontent.com}}"]>
       (<["token.json" := "{token: expired, refresh_token: stale, padding: xxxxxxxxxxxxxxxxxxxx}"]> ∅))
    ∅.

(** The same machine before any token was saved. *)
Definition first_run_os : OS :=
  mkOS EmptyString
    (<["credentials.json" := "{installed: {client_id: 42.apps.googleusercontent.com}}"]> ∅)
    ∅.

(** The same machine without a secrets file. *)
Definition os_without_secrets : OS := mkOS EmptyString ∅ ∅.

Definition plain_process : Process := mkProcess ["debug.py"] ∅.


(** Launched with PYTHONIOENCODING=ascii. *)
Definition ascii_process : Process :=
  mkProcess ["debug.py"] (<["PYTHONIOENCODING" := "ascii"]> ∅).

(** ** The import statements *)

(** What is installed: [from module import name] runs the module's top-level
    code, which may do anything to the environment, and returns, raises
    ([ModuleNotFoundError], [ImportError]) or blocks. *)
Record Installation : Type := mkInstallation {
  import_from : string -> string -> OS -> outcome unit * OS
}.

Definition py_import_from (inst : Installation) (module name : string) : M unit :=
  lift_os (import_from inst module name).

(** Lines 1 to 5 of debug.py. *)
Definition imports (inst : Installation) : M unit :=
  (py_import_from inst "google.auth.transport.requests" "Request" >>
   py_import_from inst "google.oauth2.credentials" "Credentials" >>
   py_import_from inst "google_auth_oauthlib.flow" "InstalledAppFlow" >>
   py_import_from inst "googleapiclient.discovery" "build" >>
   py_import_from inst "googleapiclient.errors" "HttpError")%py.

(** The whole file: the imports, then the module body. *)
Definition debug_module (inst : Installation) (w : World) (p : Process) : M unit :=
  (imports inst >> debug w p)%py.

Definition run_module (inst : Installation) (w : World) (p : Process) (o : OS)
    : outcome unit * State :=
  debug_module inst w p (mkState o []).

(** The same five imports as a list, and a list of imports run in order. *)
Definition IMPORTS : list (string * string) :=
  [ ("google.auth.transport.requests", "Request");
    ("google.oauth2.credentials", "Credentials");
    ("google_auth_oauthlib.flow", "InstalledAppFlow");
    ("googleapiclient.discovery", "build");
    ("googleapiclient.errors", "HttpError") ].

Fixpoint import_all (inst : Installation) (l : list (string * string)) : M unit :=
  match l with
  | [] => ret tt
  | (module, name) :: rest => (py_import_from inst module name >> import_all inst rest)%py
  end.

(** Every package is installed and importing prints and writes nothing. *)
Definition full_installation : Installation :=
  mkInstallation (fun _ _ o => (Return tt, o)).

(** google-api-python-client is missing. *)
Definition without_api_client : Installation :=
  mkInstallation (fun module _ o =>
    if String.prefix "googleapiclient" module
    then (Raise (mkExc "ModuleNotFoundError" "No module named 'googleapiclient'"), o)
    else (Return tt, o)).

(** ** Assumptions on the library *)


(** * Symbolic execution of the script *)

Section Execution.
Variable w : World.
Variable p : Process.

Lemma fresh_handle_free (o : OS) : handles o !! fresh (dom (handles o)) = None.
Proof. apply not_elem_of_dom, is_fresh. Qed.

Lemma save_block_eq (creds : Credentials) (s : State) :
  save_block w p creds s =
  let o := st_os s in
  let tr := st_trace s in
  match open_fault w p "token.json" ModeW with
  | Some f => (fault_outcome f, mkState o (tr ++ [CallOpen "token.json" ModeW]))
  | None =>
      match to_json creds with
      | inl e =>
          (closing w p (Raise e),
           mkState (after_close w p o EmptyString)
             (tr ++ [CallOpen "token.json" ModeW; CallToJson; CallClose "token.json"]))
      | inr json =>
          match write_fault w p "token.json" json with
          | Some fl =>
              match f_how fl with
              | Raises e =>
                  (closing w p (Raise e),
                   mkState (after_close w p o (take_str (f_done fl) json))
                     (tr ++ [CallOpen "token.json" ModeW; CallToJson;
                             CallWrite "token.json" json; CallClose "token.json"]))
              | Blocks =>
                  (Block,
                   mkState (while_open o (take_str (f_done fl) json))
                     (tr ++ [CallOpen "token.json" ModeW; CallToJson;
                             CallWrite "token.json" json]))
              end
          | None =>
              (closing w p (Return tt),
               mkState (after_close w p o json)
                 (tr ++ [CallOpen "token.json" ModeW; CallToJson;
                         CallWrite "token.json" json; CallClose "token.json"]))
          end
      end
  end.
Proof.
  destruct s as [o tr].
  unfold save_block, with_as, py_open, call_to_json, py_write, py_close, closing,
    after_close, after_save, while_open, bind, log, lift_os, raise, ret; cbn.
  destruct (open_fault w p "token.json" ModeW) as [[e|]|]; [reflexivity..|].
  destruct (to_json creds) as [e|json]; cbn.
  - rewrite lookup_insert_eq; cbn. rewrite lookup_insert_eq; cbn.
    rewrite <- !app_assoc.
    destruct (close_fault w p "token.json") as [[[e'|] n]|]; cbn;
      rewrite ?insert_insert_eq, ?(delete_insert_id _ _ _ (fresh_handle_free o));
      reflexivity.
  - rewrite lookup_insert_eq; cbn.
    destruct (write_fault w p "token.json" json) as [[[e'|] n]|]; cbn.
    + rewrite lookup_insert_eq; cbn. rewrite lookup_insert_eq; cbn.
      rewrite <- !app_assoc.
      destruct (close_fault w p "token.json") as [[[e''|] m]|]; cbn;
        rewrite ?insert_insert_eq, ?(delete_insert_id _ _ _ (fresh_handle_free o));
        reflexivity.
    + rewrite <- !app_assoc, !insert_insert_eq. reflexivity.
    + rewrite lookup_insert_eq; cbn. rewrite lookup_insert_eq; cbn.
      rewrite <- !app_assoc.
      destruct (close_fault w p "token.json") as [[[e''|] m]|]; cbn;
        rewrite ?insert_insert_eq, ?(delete_insert_id _ _ _ (fresh_handle_free o));
        reflexivity.
Qed.

Lemma run_eq (o : OS) :
  run w p o =
  let c := CallFromClientSecretsFile "credentials.json" SCOPES in
  match from_client_secrets_file w p o "credentials.json" SCOPES with
  | (Return fl, o1) =>
      match run_local_server fl p o1 0 with
      | (Return creds, o2) =>
          let tr := [c; CallRunLocalServer 0; CallPrint (refresh_line creds)] in
          match print_fault w p (refresh_line creds) with
          | Some f =>
              (fault_outcome (f_how f),
               mkState (after_print o2 (take_str (f_done f) (refresh_line creds))) tr)
          | None =>
              save_block w p creds (mkState (after_print o2 (refresh_line creds)) tr)
          end
      | (Raise e, o2) => (Raise e, mkState o2 [c; CallRunLocalServer 0])
      | (Block, o2) => (Block, mkState o2 [c; CallRunLocalServer 0])
      end
  | (Raise e, o1) => (Raise e, mkState o1 [c])
  | (Block, o1) => (Block, mkState o1 [c])
  end.
Proof.
  unfold run, debug, call_from_client_secrets_file, call_run_local_server, py_print,
    refresh_line, bind, log, lift_os; cbn.
  destruct (from_client_secrets_file w p o "credentials.json" SCOPES) as [[fl| |] o1];
    cbn; try reflexivity.
  destruct (run_local_server fl p o1 0) as [[creds| |] o2]; cbn; try reflexivity.
  destruct (print_fault w p _) as [[[e|] n]|]; reflexivity.
Qed.
End Execution.

(** * Consequences of the symbolic execution *)

Lemma append_cons c s t : String c s +:+ t = String c (s +:+ t).
Proof. reflexivity. Qed.

Lemma append_empty_r s : s +:+ EmptyString = s.
Proof.
  induction s as [|c s IH]; [reflexivity|]. rewrite append_cons, IH. reflexivity.
Qed.

Lemma append_assoc s t u : (s +:+ t) +:+ u = s +:+ t +:+ u.
Proof.
  induction s as [|c s IH]; [reflexivity|]. rewrite !append_cons, IH. reflexivity.
Qed.

Lemma is_prefix_refl s : is_prefix s s.
Proof. exists EmptyString. symmetry. apply append_empty_r. Qed.

Lemma is_prefix_empty s : is_prefix EmptyString s.
Proof. exists s. reflexivity. Qed.

Lemma is_prefix_trans s t u : is_prefix s t -> is_prefix t u -> is_prefix s u.
Proof. intros [r1 ->] [r2 ->]. exists (r1 +:+ r2). apply append_assoc. Qed.

Lemma take_str_prefix n s : is_prefix (take_str n s) s.
Proof.
  unfold take_str. revert n. induction s as [|c s IH]; intros [|n]; cbn.
  - apply is_prefix_empty.
  - apply is_prefix_empty.
  - apply is_prefix_empty.
  - destruct (IH n) as [rest E]. exists rest. rewrite append_cons, <- E. reflexivity.
Qed.

Section Consequences.
Variable w : World.
Variable p : Process.

Lemma flow_returns_inj o creds o2 creds' o2' :
  flow_returns w p o creds o2 -> flow_returns w p o creds' o2' ->
  creds = creds' /\ o2 = o2'.
Proof.
  intros (fl & o1 & H1 & H2) (fl' & o1' & H1' & H2').
  rewrite H1 in H1'. injection H1' as <- <-.
  rewrite H2 in H2'. injection H2' as <- <-. split; reflexivity.
Qed.

(** Every call returns: the run returns, with the line printed, the file
    saved and the seven calls made. *)
Lemma run_success o creds o2 json :
  flow_returns w p o creds o2 ->
  print_fault w p (refresh_line creds) = None ->
  open_fault w p "token.json" ModeW = None ->
  to_json creds = inr json ->
  write_fault w p "token.json" json = None ->
  close_fault w p "token.json" = None ->
  run w p o =
  (Return tt,
   mkState (after_save (after_print o2 (refresh_line creds)) json) (full_trace creds json)).
Proof.
  intros (fl & o1 & H1 & H2) Hp Ho Hj Hw Hc.
  rewrite run_eq; cbn. rewrite H1, H2, Hp, save_block_eq; cbn.
  unfold closing, after_close. rewrite Ho, Hj, Hw, Hc. reflexivity.
Qed.

(** Conversely a run that returns went through every call. *)
Lemma run_Return_inv o st :
  run w p o = (Return tt, st) ->
  exists creds o2 json,
    flow_returns w p o creds o2 /\
    print_fault w p (refresh_line creds) = None /\
    open_fault w p "token.json" ModeW = None /\
    to_json creds = inr json /\
    write_fault w p "token.json" json = None /\
    close_fault w p "token.json" = None /\
    st = mkState (after_save (after_print o2 (refresh_line creds)) json)
           (full_trace creds json).
Proof.
  rewrite run_eq; cbn.
  destruct (from_client_secrets_file w p o "credentials.json" SCOPES)
    as [[fl| |] o1] eqn:H1; try discriminate.
  destruct (run_local_server fl p o1 0) as [[creds| |] o2] eqn:H2; try discriminate.
  destruct (print_fault w p (refresh_line creds)) as [[[e|] n]|] eqn:Hp; try discriminate.
  rewrite save_block_eq; cbn. unfold closing, after_close.
  destruct (open_fault w p "token.json" ModeW) as [[e|]|] eqn:Ho; try discriminate.
  destruct (to_json creds) as [e|json] eqn:Hj.
  { destruct (close_fault w p "token.json") as [[[e'|] n]|]; discriminate. }
  destruct (write_fault w p "token.json" json) as [[[e|] n]|] eqn:Hw.
  { destruct (close_fault w p "token.json") as [[[e'|] m]|]; discriminate. }
  { discriminate. }
  destruct (close_fault w p "token.json") as [[[e'|] m]|] eqn:Hc; try discriminate.
  intros [= <-]. exists creds, o2, json.
  repeat split; try assumption. exists fl, o1. split; assumption.
Qed.

(** The calls of an execution, by how far it got. *)
Lemma trace_cases o :
  let tr := st_trace (run w p o).2 in
  let c := CallFromClientSecretsFile "credentials.json" SCOPES in
  let r := CallRunLocalServer 0 in
  let f := CallOpen "token.json" ModeW in
  let z := CallClose "token.json" in
  (tr = [c] /\
   forall fl o1, from_client_secrets_file w p o "credentials.json" SCOPES <> (Return fl, o1)) \/
  (tr = [c; r] /\
   (exists fl o1, from_client_secrets_file w p o "credentials.json" SCOPES = (Return fl, o1)) /\
   forall creds o2, ~ flow_returns w p o creds o2) \/
  (exists creds o2, flow_returns w p o creds o2 /\
     (tr = [c; r; CallPrint (refresh_line creds)] /\
      is_Some (print_fault w p (refresh_line creds)) \/
      print_fault w p (refresh_line creds) = None /\
      (tr = [c; r; CallPrint (refresh_line creds); f] /\
       is_Some (open_fault w p "token.json" ModeW) \/
       open_fault w p "token.json" ModeW = None /\
       (tr = [c; r; CallPrint (refresh_line creds); f; CallToJson; z] /\
        (exists e, to_json creds = inl e) \/
        exists json, to_json creds = inr json /\
          (tr = [c; r; CallPrint (refresh_line creds); f; CallToJson;
                 CallWrite "token.json" json] /\
           hangs (write_fault w p "token.json" json) \/
           tr = full_trace creds json /\
           ~ hangs (write_fault w p "token.json" json)))))).
Proof.
  cbn. rewrite run_eq; cbn.
  destruct (from_client_secrets_file w p o "credentials.json" SCOPES)
    as [[fl| |] o1] eqn:H1; cbn; [|left; split; [reflexivity|congruence]..].
  right.
  destruct (run_local_server fl p o1 0) as [[creds| |] o2] eqn:H2; cbn.
  2,3: left; split; [reflexivity|]; split; [eauto|];
       intros creds o2' (fl' & o1' & H1' & H2'); congruence.
  right. exists creds, o2. split; [exists fl, o1; split; assumption|].
  destruct (print_fault w p (refresh_line creds)) as [fp|] eqn:Hp; cbn;
    [left; split; [reflexivity|eauto]|].
  right. split; [reflexivity|].
  rewrite save_block_eq; cbn.
  destruct (open_fault w p "token.json" ModeW) as [fo|]; cbn;
    [left; split; [reflexivity|eauto]|].
  right. split; [reflexivity|].
  destruct (to_json creds) as [e|json]; cbn; [left; split; [reflexivity|eauto]|].
  right. exists json. split; [reflexivity|].
  destruct (write_fault w p "token.json" json) as [[[e|] n]|]; cbn.
  - right. split; [reflexivity|]. intros [m [=]].
  - left. split; [reflexivity|]. exists n. reflexivity.
  - right. split; [reflexivity|]. intros [m [=]].
Qed.
End Consequences.

(** * Executions in the sample worlds *)

Lemma sample_flow_returns :
  flow_returns (quiet_world (granting_flow sample_creds)) plain_process sample_os
    sample_creds (after_print sample_os prompt).
Proof. exists (granting_flow sample_creds), sample_os. split; reflexivity. Qed.

Lemma sample_run :
  run (quiet_world (granting_flow sample_creds)) plain_process sample_os =
  (Return tt,
   mkState (after_save (after_print (after_print sample_os prompt) (refresh_line sample_creds))
              sample_json)
     (full_trace sample_creds sample_json)).
Proof. apply run_success; solve [reflexivity | apply sample_flow_returns]. Qed.

(** The same run, computed: the prompt of the library, then the script's
    line; the stale [token.json] replaced; no file object left open. *)
Example sample_run_stdout :
  stdout (st_os (run (quiet_world (granting_flow sample_creds)) plain_process sample_os).2) =
  prompt +:+ "Refresh Token: 1//0gLq" +:+ newline.
Proof. vm_compute. reflexivity. Qed.

Example sample_run_files :
  map_to_list
    (files (st_os (run (quiet_world (granting_flow sample_creds)) plain_process sample_os).2)) =
  [("credentials.json", "{installed: {client_id: 42.apps.googleusercontent.com}}");
   ("token.json", sample_json)].
Proof. vm_compute. reflexivity. Qed.

Example sample_run_handles :
  handles (st_os (run (quiet_world (granting_flow sample_creds)) plain_process sample_os).2) = ∅.
Proof. vm_compute. reflexivity. Qed.

(** Without a secrets file the constructor raises and nothing else runs. *)
Example missing_secrets_run :
  run (quiet_world (granting_flow sample_creds)) plain_process os_without_secrets =
  (Raise (file_not_found "credentials.json"),
   mkState os_without_secrets [CallFromClientSecretsFile "credentials.json" SCOPES]).
Proof. vm_compute. reflexivity. Qed.

(** In a read-only directory the line is printed and [open] raises. *)
Example readonly_run :
  (run (readonly_world (granting_flow sample_creds)) plain_process sample_os).1 =
  Raise (mkExc "PermissionError" "token.json") /\
  st_trace (run (readonly_world (granting_flow sample_creds)) plain_process sample_os).2 =
  [CallFromClientSecretsFile "credentials.json" SCOPES; CallRunLocalServer 0;
   CallPrint ("Refresh Token: 1//0gLq" +:+ newline); CallOpen "token.json" ModeW].
Proof. split; vm_compute; reflexivity. Qed.

Example readonly_first_run :
  run (readonly_world (granting_flow sample_creds)) plain_process first_run_os =
  (Raise (mkExc "PermissionError" "token.json"),
   mkState (after_print (after_print first_run_os prompt) (refresh_line sample_creds))
     [CallFromClientSecretsFile "credentials.json" SCOPES; CallRunLocalServer 0;
      CallPrint (refresh_line sample_creds); CallOpen "token.json" ModeW]).
Proof. vm_compute. reflexivity. Qed.

(** On a full disk the write is buffered and the close raises: the file is
    left empty, the stale token gone. *)
Example full_disk_run :
  (run (full_disk_world (granting_flow sample_creds)) plain_process sample_os).1 =
  Raise (mkExc "OSError" "No space left on device") /\
  files (st_os (run (full_disk_world (granting_flow sample_creds)) plain_process sample_os).2)
    !! "token.json" = Some EmptyString /\
  st_trace (run (full_disk_world (granting_flow sample_creds)) plain_process sample_os).2
  = full_trace sample_creds sample_json.
Proof. repeat split; vm_compute; reflexivity. Qed.

(** When the device fails during the write, the close is still made and
    the file holds what was accepted before the failure. *)
Example io_error_run :
  (run (io_error_world (granting_flow sample_creds)) plain_process sample_os).1 =
  Raise (mkExc "OSError" "Input/output error") /\
  files (st_os (run (io_error_world (granting_flow sample_creds)) plain_process sample_os).2)
    !! "token.json" = Some "{token: " /\
  handles (st_os (run (io_error_world (granting_flow sample_creds)) plain_process sample_os).2)
  = ∅ /\
  st_trace (run (io_error_world (granting_flow sample_creds)) plain_process sample_os).2
  = full_trace sample_creds sample_json.
Proof. repeat split; vm_compute; reflexivity. Qed.

(** When the serialization raises, the file is opened, emptied and closed
    without any write. *)
Example unserializable_run :
  run (quiet_world (granting_flow unserializable_creds)) plain_process sample_os =
  (Raise (mkExc "TypeError" "Object of type bytes is not JSON serializable"),
   mkState
     (after_save (after_print (after_print sample_os prompt)
                    (refresh_line unserializable_creds)) EmptyString)
     [CallFromClientSecretsFile "credentials.json" SCOPES; CallRunLocalServer 0;
      CallPrint (refresh_line unserializable_creds); CallOpen "token.json" ModeW;
      CallToJson; CallClose "token.json"]).
Proof. vm_compute. reflexivity. Qed.

(** While the consent step waits, the script has printed and written
    nothing. *)
Example waiting_run :
  run (quiet_world waiting_flow) plain_process sample_os =
  (Block,
   mkState (after_print sample_os prompt)
     [CallFromClientSecretsFile "credentials.json" SCOPES; CallRunLocalServer 0]).
Proof. vm_compute. reflexivity. Qed.

(** When [open] never returns, the line is out and the run waits there. *)
Example pipe_run :
  run (pipe_world (granting_flow sample_creds)) plain_process sample_os =
  (Block,
   mkState (after_print (after_print sample_os prompt) (refresh_line sample_creds))
     [CallFromClientSecretsFile "credentials.json" SCOPES; CallRunLocalServer 0;
      CallPrint (refresh_line sample_creds); CallOpen "token.json" ModeW]).
Proof. vm_compute. reflexivity. Qed.

(** The steps of three of the runs above. *)
Example sample_run_steps :
  steps (st_trace (run (quiet_world (granting_flow sample_creds)) plain_process sample_os).2)
  = program /\
  steps (st_trace (run (full_disk_world (granting_flow sample_creds)) plain_process sample_os).2)
  = program /\
  steps (st_trace (run (quiet_world waiting_flow) plain_process sample_os).2)
  = [StepConstructFlow; StepRunLocalServer].
Proof. repeat split; vm_compute; reflexivity. Qed.

(** Under PYTHONIOENCODING=ascii the accented token cannot be printed: the
    label and the separator are out, then [print] raises; without the
    variable the same credential is printed and saved. *)
Example ascii_run :
  run (encoding_world (granting_flow accented_creds)) ascii_process sample_os =
  (Raise (mkExc "UnicodeEncodeError" "'ascii' codec can't encode characters"),
   mkState (after_print (after_print sample_os prompt) "Refresh Token: ")
     [CallFromClientSecretsFile "credentials.json" SCOPES; CallRunLocalServer 0;
      CallPrint (refresh_line accented_creds)]).
Proof. vm_compute. reflexivity. Qed.

Example utf8_run :
  (run (encoding_world (granting_flow accented_creds)) plain_process sample_os).1 =
  Return tt /\
  stdout (st_os (run (encoding_world (granting_flow accented_creds)) plain_process sample_os).2)
  = prompt +:+ "Refresh Token: " +:+ accented_token +:+ newline.
Proof. split; vm_compute; reflexivity. Qed.

(** For contrast, mode ['a'] keeps what the file held and writes after it. *)
Example append_mode_keeps_contents :
  let w := quiet_world (granting_flow sample_creds) in
  let o := mkOS EmptyString (<["token.json" := "old"]> ∅) ∅ in
  files (st_os (with_as w plain_process (py_open w plain_process "token.json" ModeA)
                  (fun token => py_write w plain_process token "new" >> ret tt)%py
                  (mkState o [])).2)
    !! "token.json" = Some "oldnew".
Proof. vm_compute. reflexivity. Qed.

Example write_mode_truncates :
  let w := quiet_world (granting_flow sample_creds) in
  let o := mkOS EmptyString (<["token.json" := "old"]> ∅) ∅ in
  files (st_os (with_as w plain_process (py_open w plain_process "token.json" ModeW)
                  (fun token => py_write w plain_process token "new" >> ret tt)%py
                  (mkState o [])).2)
    !! "token.json" = Some "new".
Proof. vm_compute. reflexivity. Qed.

(** * The printed line *)

Lemma refresh_line_Some creds v :
  refresh_token creds = Some v ->
  refresh_line creds = "Refresh Token: " +:+ v +:+ newline.
Proof. unfold refresh_line. intros ->. reflexivity. Qed.

Lemma refresh_line_None creds :
  refresh_token creds = None ->
  refresh_line creds = "Refresh Token: None" +:+ newline.
Proof. unfold refresh_line. intros ->. reflexivity. Qed.

Lemma full_trace_print creds json text :
  CallPrint text ∈ full_trace creds json <-> text = refresh_line creds.
Proof.
  unfold full_trace. rewrite !elem_of_cons, elem_of_nil. split.
  - intros H. repeat (destruct H as [H|H]; try discriminate); [|contradiction].
    injection H as ->. reflexivity.
  - intros ->. tauto.
Qed.

Lemma full_trace_write creds json path data :
  CallWrite path data ∈ full_trace creds json <-> path = "token.json" /\ data = json.
Proof.
  unfold full_trace. rewrite !elem_of_cons, elem_of_nil. split.
  - intros H. repeat (destruct H as [H|H]; try discriminate); [|contradiction].
    injection H as -> ->. split; reflexivity.
  - intros [-> ->]. tauto.
Qed.

Lemma full_trace_open creds json path mode :
  CallOpen path mode ∈ full_trace creds json <-> path = "token.json" /\ mode = ModeW.
Proof.
  unfold full_trace. rewrite !elem_of_cons, elem_of_nil. split.
  - intros H. repeat (destruct H as [H|H]; try discriminate); [|contradiction].
    injection H as -> ->. split; reflexivity.
  - intros [-> ->]. tauto.
Qed.

(** C1.  In a run that returns and in which the flow returned a credential
    whose refresh token is the string [v], the script's one [print] call
    sends exactly the label, a space, [v] and a newline to standard output:
    the output the library left is extended by that line and nothing else. *)
Theorem prints_refresh_token w p o creds o2 v st :
  flow_returns w p o creds o2 ->
  refresh_token creds = Some v ->
  run w p o = (Return tt, st) ->
  stdout (st_os st) = stdout o2 +:+ "Refresh Token: " +:+ v +:+ newline /\
  (forall text, CallPrint text ∈ st_trace st <->
                text = "Refresh Token: " +:+ v +:+ newline).
Proof.
  intros Hflow Hv Hrun.
  destruct (run_Return_inv _ _ _ _ Hrun) as (creds' & o2' & json & Hflow' & _ & _ & _ & _ & _ & ->).
  destruct (flow_returns_inj _ _ _ _ _ _ _ Hflow Hflow') as [<- <-].
  cbn. rewrite <- (refresh_line_Some _ _ Hv). split; [reflexivity|].
  intros text. apply full_trace_print.
Qed.

Lemma prints_refresh_token_witness :
  stdout (st_os (run (quiet_world (granting_flow sample_creds)) plain_process sample_os).2) =
  prompt +:+ "Refresh Token: 1//0gLq" +:+ newline.
Proof.
  exact (proj1 (prints_refresh_token _ _ _ _ _ "1//0gLq" _
                  sample_flow_returns eq_refl (eq_trans sample_run eq_refl))).
Defined.

(** * The saved file *)

(** C2.  In a run that returns, the serialization method returned a string
    and [token.json] holds exactly that string; the script's one [write]
    call wrote that string to that file and nothing else. *)
Theorem saved_file_is_serialized_form w p o creds o2 st :
  flow_returns w p o creds o2 ->
  run w p o = (Return tt, st) ->
  exists json,
    to_json creds = inr json /\
    files (st_os st) !! "token.json" = Some json /\
    (forall path data, CallWrite path data ∈ st_trace st <->
                       path = "token.json" /\ data = json).
Proof.
  intros Hflow Hrun.
  destruct (run_Return_inv _ _ _ _ Hrun)
    as (creds' & o2' & json & Hflow' & _ & _ & Hj & _ & _ & ->).
  destruct (flow_returns_inj _ _ _ _ _ _ _ Hflow Hflow') as [<- <-].
  exists json. split; [assumption|]. split.
  - cbn. apply lookup_insert_eq.
  - intros path data. apply full_trace_write.
Qed.

Lemma saved_file_is_serialized_form_witness :
  exists json,
    to_json sample_creds = inr json /\
    files (st_os (run (quiet_world (granting_flow sample_creds)) plain_process sample_os).2)
      !! "token.json" = Some json /\
    (forall path data,
       CallWrite path data ∈
         st_trace (run (quiet_world (granting_flow sample_creds)) plain_process sample_os).2 <->
       path = "token.json" /\ data = json).
Proof.
  exact (saved_file_is_serialized_form _ _ _ _ _ _
           sample_flow_returns (eq_trans sample_run eq_refl)).
Defined.

Ltac trace_membership :=
  rewrite ?elem_of_cons, ?elem_of_nil; intuition discriminate.



(** C3.  The credential file is not written in every execution in which
    the flow returns a credential object: when the working directory is
    read-only, the flow returns the credential, the token is printed, [open]
    is refused, no [write] is made and no [token.json] exists afterwards;
    the files are what they were. *)
Theorem save_not_always_performed :
  exists w p o creds o2,
    flow_returns w p o creds o2 /\
    (forall path data, CallWrite path data ∉ st_trace (run w p o).2) /\
    files (st_os (run w p o).2) !! "token.json" = None /\
    files (st_os (run w p o).2) = files o.
Proof.
  exists (readonly_world (granting_flow sample_creds)), plain_process, first_run_os,
    sample_creds, (after_print first_run_os prompt).
  split; [exists (granting_flow sample_creds), first_run_os; split; reflexivity|].
  rewrite readonly_first_run; cbn.
  split; [intros path data; trace_membership|]. split; reflexivity.
Qed.

(** * Failures *)

(** C4.  When a call of the script raises, nothing catches the exception:
    the run ends with that exception raised out of the module body.  This
    covers the constructor failing on the secrets file, the consent step
    failing to listen or being refused, and the builtins. *)
Theorem failure_propagates_unhandled w p o e :
  step_raises w p o e ->
  exists st, run w p o = (Raise e, st).
Proof.
  intros H. rewrite run_eq; cbn.
  destruct H as [e o1 H1 | e fl o1 o2 H1 H2
                | e creds o2 (fl & o1 & H1 & H2) [n Hp]
                | e creds o2 (fl & o1 & H1 & H2) Hp Ho
                | e creds o2 (fl & o1 & H1 & H2) Hp Ho Hj Hc
                | e creds o2 json (fl & o1 & H1 & H2) Hp Ho Hj [n Hw] Hc
                | e creds o2 (fl & o1 & H1 & H2) Hp Ho Hnh [n Hc] ];
    rewrite H1; try rewrite H2; try rewrite Hp; cbn; eauto;
    rewrite save_block_eq; cbn; unfold closing; rewrite Ho; cbn; eauto.
  - rewrite Hj, Hc. eauto.
  - rewrite Hj, Hw, Hc. cbn. eauto.
  - rewrite Hc. cbn. destruct (to_json creds) as [e'|json] eqn:Hj; eauto.
    destruct (write_fault w p "token.json" json) as [[[e'|] m]|] eqn:Hw; cbn; eauto.
    destruct (Hnh json eq_refl). exists m. exact Hw.
Qed.

Lemma failure_propagates_unhandled_witness :
  exists st,
    run (quiet_world (granting_flow sample_creds)) plain_process os_without_secrets =
    (Raise (file_not_found "credentials.json"), st).
Proof.
  apply failure_propagates_unhandled.
  apply (raises_construct _ _ _ _ os_without_secrets). reflexivity.
Defined.

(** The two failures of the flow leave the process with nothing printed or
    written by the script: the failing call is the last one made. *)
Lemma construct_failure_run w p o e o1 :
  from_client_secrets_file w p o "credentials.json" SCOPES = (Raise e, o1) ->
  run w p o = (Raise e, mkState o1 [CallFromClientSecretsFile "credentials.json" SCOPES]).
Proof. intros H. rewrite run_eq; cbn. rewrite H. reflexivity. Qed.

Lemma consent_failure_run w p o e fl o1 o2 :
  from_client_secrets_file w p o "credentials.json" SCOPES = (Return fl, o1) ->
  run_local_server fl p o1 0 = (Raise e, o2) ->
  run w p o =
  (Raise e,
   mkState o2 [CallFromClientSecretsFile "credentials.json" SCOPES; CallRunLocalServer 0]).
Proof. intros H1 H2. rewrite run_eq; cbn. rewrite H1, H2. reflexivity. Qed.

Example consent_refused :
  exists st,
    run (quiet_world denied_flow) plain_process sample_os =
    (Raise (mkExc "AccessDeniedError" "(access_denied)"), st) /\
    files (st_os st) = files sample_os.
Proof.
  eexists. split.
  - apply (consent_failure_run _ _ _ _ denied_flow sample_os); reflexivity.
  - reflexivity.
Qed.

(** * Order of the steps *)




(** * Arguments of the constructor *)

(** C6.  Every execution starts by calling the flow constructor with the
    file name [credentials.json] and the scope list holding the calendar
    URI and nothing else, and makes no other call of the constructor.  The
    run is made of the result of the library's constructor on exactly these
    arguments in the initial environment: when that application raises or
    never returns so does the run, in the environment it left; when it
    returns a flow, the consent step of that very flow is what runs next;
    and no other value of the constructor matters to the run. *)
Theorem flow_constructed_with_fixed_arguments w p o :
  let c := CallFromClientSecretsFile "credentials.json"
             ["https://www.googleapis.com/auth/calendar"] in
  let construct (w0 : World) :=
    from_client_secrets_file w0 p o "credentials.json"
      ["https://www.googleapis.com/auth/calendar"] in
  (exists rest,
     st_trace (run w p o).2 = c :: rest /\
     forall path scopes, CallFromClientSecretsFile path scopes ∉ rest) /\
  (forall e o1, construct w = (Raise e, o1) -> run w p o = (Raise e, mkState o1 [c])) /\
  (forall o1, construct w = (Block, o1) -> run w p o = (Block, mkState o1 [c])) /\
  (forall fl o1, construct w = (Return fl, o1) ->
     (forall e o2, run_local_server fl p o1 0 = (Raise e, o2) ->
        run w p o = (Raise e, mkState o2 [c; CallRunLocalServer 0])) /\
     (forall o2, run_local_server fl p o1 0 = (Block, o2) ->
        run w p o = (Block, mkState o2 [c; CallRunLocalServer 0])) /\
     (forall creds o2, run_local_server fl p o1 0 = (Return creds, o2) ->
        exists rest,
          st_trace (run w p o).2 =
          c :: CallRunLocalServer 0 :: CallPrint (refresh_line creds) :: rest)) /\
  (forall w',
     construct w' = construct w ->
     print_fault w' = print_fault w ->
     open_fault w' = open_fault w ->
     write_fault w' = write_fault w ->
     close_fault w' = close_fault w ->
     run w' p o = run w p o).
Proof.
  cbn. split; [|split; [|split; [|split]]].
  - destruct (trace_cases w p o)
      as [[H _] | [(H & _) | (creds & o2 & _ &
           [[H _] | [_ [[H _] | [_ [[H _] | (json & _ & [[H _] | [H _]])]]]]])]];
      cbn in H; rewrite H; eexists; (split; [reflexivity|]);
      intros path scopes; trace_membership.
  - intros e o1 H. rewrite run_eq; cbn. fold SCOPES in H. rewrite H. reflexivity.
  - intros o1 H. rewrite run_eq; cbn. fold SCOPES in H. rewrite H. reflexivity.
  - intros fl o1 H. fold SCOPES in H. split; [|split].
    + intros e o2 H2. rewrite run_eq; cbn. rewrite H, H2. reflexivity.
    + intros o2 H2. rewrite run_eq; cbn. rewrite H, H2. reflexivity.
    + intros creds o2 H2. rewrite run_eq; cbn. rewrite H, H2.
      destruct (print_fault w p (refresh_line creds)); cbn; [eexists; reflexivity|].
      rewrite save_block_eq; cbn.
      destruct (open_fault w p "token.json" ModeW); cbn; [eexists; reflexivity|].
      destruct (to_json creds) as [e|json]; cbn; [eexists; reflexivity|].
      destruct (write_fault w p "token.json" json) as [[[e|] n]|]; cbn;
        eexists; reflexivity.
  - intros w' Hc Hp Ho Hw Hz. fold SCOPES in Hc.
    rewrite !run_eq; cbn. rewrite Hc, Hp.
    destruct (from_client_secrets_file w p o "credentials.json" SCOPES)
      as [[fl| |] o1]; try reflexivity.
    destruct (run_local_server fl p o1 0) as [[creds| |] o2]; try reflexivity.
    destruct (print_fault w p (refresh_line creds)); [reflexivity|].
    rewrite !save_block_eq; cbn. unfold closing, after_close. rewrite Ho, Hw, Hz.
    reflexivity.
Qed.

(** * The [with] statement *)

(** C7, as stated, fails: an execution can reach the save step and open and
    close the file without writing it.  When the serialization raises, the
    calls of the [with] statement are open, serialize, close: no [write] is
    made, and [token.json] is left empty. *)
Lemma write_skipped_when_serialization_raises :
  flow_returns (quiet_world (granting_flow unserializable_creds)) plain_process sample_os
    unserializable_creds (after_print sample_os prompt) /\
  print_fault (quiet_world (granting_flow unserializable_creds)) plain_process
    (refresh_line unserializable_creds) = None /\
  open_fault (quiet_world (granting_flow unserializable_creds)) plain_process
    "token.json" ModeW = None /\
  CallOpen "token.json" ModeW ∈
    st_trace (run (quiet_world (granting_flow unserializable_creds))
                plain_process sample_os).2 /\
  CallClose "token.json" ∈
    st_trace (run (quiet_world (granting_flow unserializable_creds))
                plain_process sample_os).2 /\
  (forall path data,
     CallWrite path data ∉
       st_trace (run (quiet_world (granting_flow unserializable_creds))
                   plain_process sample_os).2) /\
  files (st_os (run (quiet_world (granting_flow unserializable_creds))
                  plain_process sample_os).2) !! "token.json" = Some EmptyString.
Proof.
  split; [exists (granting_flow unserializable_creds), sample_os; split; reflexivity|].
  split; [reflexivity|]. split; [reflexivity|].
  rewrite unserializable_run; cbn.
  split; [rewrite !elem_of_cons; tauto|]. split; [rewrite !elem_of_cons; tauto|].
  split; [intros path data; trace_membership|]. apply lookup_insert_eq.
Qed.

(** C7, amended.  The output file is one scoped resource.  Once [open] has
    returned: when the serialization raises, the file is closed at once,
    emptied and unwritten; when it returns, the [write] call is made with
    the serialized credential, between the open and the close; unless the
    write never returns, the close is made exactly once, after everything
    else in the statement, also when the write raises, and the run then
    ends as the close lets it (raising the exception of the write when the
    close returns); with no call left waiting the file object is released;
    and when the write and the close return, [token.json] holds exactly the
    serialized credential. *)
Theorem token_file_scoped w p o creds o2 :
  flow_returns w p o creds o2 ->
  print_fault w p (refresh_line creds) = None ->
  open_fault w p "token.json" ModeW = None ->
  let st := (run w p o).2 in
  let head := [CallFromClientSecretsFile "credentials.json" SCOPES; CallRunLocalServer 0;
               CallPrint (refresh_line creds); CallOpen "token.json" ModeW] in
  (forall e, to_json creds = inl e ->
     st_trace st = head ++ [CallToJson; CallClose "token.json"] /\
     (run w p o).1 = closing w p (Raise e) /\
     files (st_os st) !! "token.json" = Some EmptyString) /\
  (forall json, to_json creds = inr json ->
     (~ hangs (write_fault w p "token.json" json) -> st_trace st = full_trace creds json) /\
     (hangs (write_fault w p "token.json" json) ->
        st_trace st = head ++ [CallToJson; CallWrite "token.json" json] /\
        (run w p o).1 = Block) /\
     (forall e, raises (write_fault w p "token.json" json) e ->
        (run w p o).1 = closing w p (Raise e)) /\
     (write_fault w p "token.json" json = None ->
        (run w p o).1 = closing w p (Return tt) /\
        (close_fault w p "token.json" = None ->
           files (st_os st) !! "token.json" = Some json))) /\
  ((forall json, to_json creds = inr json ->
                 ~ hangs (write_fault w p "token.json" json)) ->
   ~ hangs (close_fault w p "token.json") ->
   handles (st_os st) = handles o2) /\
  (exists body,
     (st_trace st = head ++ body ++ [CallClose "token.json"] \/
      st_trace st = head ++ body /\
      exists json, to_json creds = inr json /\ hangs (write_fault w p "token.json" json)) /\
     (forall path mode, CallOpen path mode ∉ body) /\
     (forall path, CallClose path ∉ body)).
Proof.
  intros (fl & o1 & H1 & H2) Hp Ho. cbn.
  rewrite run_eq; cbn. rewrite H1, H2, Hp, save_block_eq; cbn. rewrite Ho.
  destruct (to_json creds) as [e|json] eqn:Hj; cbn.
  - split; [|split; [|split]].
    + intros e' [= <-]. split; [reflexivity|]. split; [reflexivity|].
      unfold after_close.
      destruct (close_fault w p "token.json") as [[[e'|] n]|]; cbn;
        rewrite lookup_insert_eq; try reflexivity; destruct n; reflexivity.
    + discriminate.
    + intros _ Hnh. unfold after_close.
      destruct (close_fault w p "token.json") as [[[e'|] n]|]; cbn; try reflexivity.
      destruct Hnh. exists n. reflexivity.
    + exists [CallToJson]. split; [left; reflexivity|].
      split; intros; trace_membership.
  - destruct (write_fault w p "token.json" json) as [[[e|] n]|] eqn:Hw; cbn.
    + split; [discriminate|]. split; [|split].
      * intros json' [= <-]. rewrite Hw.
        split; [intros _; reflexivity|].
        split; [intros [m [=]]|].
        split; [intros e' [m [= <-]]; reflexivity|discriminate].
      * intros _ Hnh. unfold after_close.
        destruct (close_fault w p "token.json") as [[[e'|] m]|]; cbn; try reflexivity.
        destruct Hnh. exists m. reflexivity.
      * exists [CallToJson; CallWrite "token.json" json]. split; [left; reflexivity|].
        split; intros; trace_membership.
    + split; [discriminate|]. split; [|split].
      * intros json' [= <-]. rewrite Hw.
        split; [intros Hnh; destruct Hnh; exists n; reflexivity|].
        split; [intros _; split; reflexivity|].
        split; [intros e' [m [=]]|discriminate].
      * intros Hnh. destruct (Hnh json eq_refl). exists n. exact Hw.
      * exists [CallToJson; CallWrite "token.json" json]. split.
        -- right. split; [reflexivity|]. exists json. split; [reflexivity|].
           exists n. exact Hw.
        -- split; intros; trace_membership.
    + split; [discriminate|]. split; [|split].
      * intros json' [= <-]. rewrite Hw.
        split; [intros _; reflexivity|].
        split; [intros [m [=]]|].
        split; [intros e' [m [=]]|].
        intros _. split; [reflexivity|]. intros Hc. unfold after_close. rewrite Hc.
        cbn. apply lookup_insert_eq.
      * intros _ Hnh. unfold after_close.
        destruct (close_fault w p "token.json") as [[[e'|] m]|]; cbn; try reflexivity.
        destruct Hnh. exists m. reflexivity.
      * exists [CallToJson; CallWrite "token.json" json]. split; [left; reflexivity|].
        split; intros; trace_membership.
Qed.

Lemma token_file_scoped_witness :
  st_trace (run (io_error_world (granting_flow sample_creds)) plain_process sample_os).2 =
  full_trace sample_creds sample_json /\
  (run (io_error_world (granting_flow sample_creds)) plain_process sample_os).1 =
  Raise (mkExc "OSError" "Input/output error") /\
  handles (st_os (run (io_error_world (granting_flow sample_creds))
                    plain_process sample_os).2) = ∅.
Proof.
  assert (Hflow : flow_returns (io_error_world (granting_flow sample_creds))
                    plain_process sample_os sample_creds (after_print sample_os prompt)).
  { exists (granting_flow sample_creds), sample_os. split; reflexivity. }
  destruct (token_file_scoped _ _ _ _ _ Hflow eq_refl eq_refl) as (_ & Hw & Hh & _).
  destruct (Hw sample_json eq_refl) as (Htr & _ & Hr & _).
  split; [apply Htr; intros [m [=]]|].
  split; [apply Hr; exists 8%nat; reflexivity|].
  apply Hh; [intros json _ [m [=]]|intros [m [=]]].
Defined.

(** * Command line and environment variables *)




(** * Overwriting the output file *)

(** C9.  The script opens one file, [token.json], in mode ['w'].  In a run
    that returns, a [token.json] that existed before is replaced: the file
    holds the serialized credential alone, every other file is as the flow
    left it, and standard output carries the refresh-token line and no
    mention of the replacement. *)
Theorem token_json_overwritten w p o creds o2 old st :
  flow_returns w p o creds o2 ->
  files o !! "token.json" = Some old ->
  run w p o = (Return tt, st) ->
  exists json,
    to_json creds = inr json /\
    files (st_os st) !! "token.json" = Some json /\
    files (st_os st) = <["token.json" := json]> (files o2) /\
    (forall path mode, CallOpen path mode ∈ st_trace st <->
                       path = "token.json" /\ mode = ModeW) /\
    stdout (st_os st) = stdout o2 +:+ refresh_line creds.
Proof.
  intros Hflow _ Hrun.
  destruct (run_Return_inv _ _ _ _ Hrun)
    as (creds' & o2' & json & Hflow' & _ & _ & Hj & _ & _ & ->).
  destruct (flow_returns_inj _ _ _ _ _ _ _ Hflow Hflow') as [<- <-].
  exists json. cbn. split; [assumption|].
  split; [apply lookup_insert_eq|]. split; [reflexivity|].
  split; [|reflexivity]. intros path mode. apply full_trace_open.
Qed.

Lemma token_json_overwritten_witness :
  exists json,
    to_json sample_creds = inr json /\
    files (st_os (run (quiet_world (granting_flow sample_creds)) plain_process sample_os).2)
      !! "token.json" = Some json.
Proof.
  destruct (token_json_overwritten _ _ _ _ _
              "{token: expired, refresh_token: stale, padding: xxxxxxxxxxxxxxxxxxxx}" _
              sample_flow_returns eq_refl (eq_trans sample_run eq_refl))
    as (json & Hj & Hf & _).
  exists json. split; assumption.
Defined.

(** * A credential without refresh token *)

(** C10.  The refresh token is not checked.  When the flow returns a
    credential whose refresh token is [None] and no call fails for a reason
    of the environment, the run returns: it prints the label followed by
    [None] and nothing else, and saves the serialized credential, after the
    same seven calls as for any other credential. *)
Theorem absent_refresh_token_not_checked w p o creds o2 json :
  flow_returns w p o creds o2 ->
  refresh_token creds = None ->
  print_fault w p ("Refresh Token: None" +:+ newline) = None ->
  open_fault w p "token.json" ModeW = None ->
  to_json creds = inr json ->
  write_fault w p "token.json" json = None ->
  close_fault w p "token.json" = None ->
  exists st,
    run w p o = (Return tt, st) /\
    stdout (st_os st) = stdout o2 +:+ "Refresh Token: None" +:+ newline /\
    files (st_os st) !! "token.json" = Some json /\
    st_trace st = full_trace creds json.
Proof.
  intros Hflow Hnone Hp Ho Hj Hw Hc.
  rewrite <- (refresh_line_None _ Hnone) in Hp.
  eexists. split; [apply (run_success _ _ _ _ _ _ Hflow Hp Ho Hj Hw Hc)|].
  cbn. rewrite (refresh_line_None _ Hnone).
  split; [reflexivity|]. split; [apply lookup_insert_eq|reflexivity].
Qed.

Lemma absent_refresh_token_not_checked_witness :
  exists st,
    run (quiet_world (granting_flow creds_without_refresh)) plain_process sample_os =
    (Return tt, st) /\
    stdout (st_os st) = prompt +:+ "Refresh Token: None" +:+ newline /\
    files (st_os st) !! "token.json" = Some "{token: ya29.a0, refresh_token: null}" /\
    st_trace st = full_trace creds_without_refresh "{token: ya29.a0, refresh_token: null}".
Proof.
  refine (absent_refresh_token_not_checked
            (quiet_world (granting_flow creds_without_refresh)) plain_process sample_os
            creds_without_refresh (after_print sample_os prompt) _
            _ eq_refl eq_refl eq_refl eq_refl eq_refl eq_refl).
  exists (granting_flow creds_without_refresh), sample_os. split; reflexivity.
Defined.

(** * Further properties of the script *)

(** ** The imports *)

Lemma import_all_trace inst l o tr :
  st_trace (import_all inst l (mkState o tr)).2 = tr.
Proof.
  revert o. induction l as [|[module name] l IH]; intros o; [reflexivity|].
  cbn. unfold bind, py_import_from, lift_os; cbn.
  destruct (import_from inst module name o) as [[[]| |] o']; cbn; [apply IH|reflexivity..].
Qed.

Lemma import_all_app inst pre post s :
  import_all inst (pre ++ post) s =
  bind (import_all inst pre) (fun _ => import_all inst post) s.
Proof.
  revert s. induction pre as [|[module name] pre IH]; intros s; [reflexivity|].
  cbn. unfold bind.
  destruct (py_import_from inst module name s) as [[[]| |] s1];
    [rewrite IH; reflexivity|reflexivity..].
Qed.

Lemma imports_eq inst s : imports inst s = import_all inst IMPORTS s.
Proof.
  destruct s as [o tr]. unfold imports, IMPORTS; cbn.
  unfold bind, py_import_from, lift_os, ret; cbn.
  repeat match goal with
  | |- context [import_from inst ?m ?n ?o] =>
      destruct (import_from inst m n o) as [[[]| |] ?]; cbn; try reflexivity
  end.
Qed.

Lemma run_module_eq inst w p o :
  run_module inst w p o =
  match import_all inst IMPORTS (mkState o []) with
  | (Return _, s) => run w p (st_os s)
  | (Raise e, s) => (Raise e, mkState (st_os s) [])
  | (Block, s) => (Block, mkState (st_os s) [])
  end.
Proof.
  unfold run_module, debug_module, bind. rewrite imports_eq.
  pose proof (import_all_trace inst IMPORTS o []) as Htr.
  destruct (import_all inst IMPORTS (mkState o [])) as [[[]| |] [o' tr]];
    cbn in Htr; subst tr; reflexivity.
Qed.

Lemma import_all_returns_split inst pre module name post o s :
  import_all inst (pre ++ (module, name) :: post) (mkState o []) = (Return tt, s) ->
  exists o1 o2,
    import_all inst pre (mkState o []) = (Return tt, mkState o1 []) /\
    import_from inst module name o1 = (Return tt, o2).
Proof.
  rewrite import_all_app. unfold bind at 1.
  pose proof (import_all_trace inst pre o []) as Htr.
  destruct (import_all inst pre (mkState o [])) as [[[]| |] [o1 tr]];
    cbn in Htr; subst tr; try discriminate.
  cbn. unfold bind, py_import_from, lift_os; cbn.
  destruct (import_from inst module name o1) as [[[]| |] o2] eqn:Himp; try discriminate.
  intros _. exists o1, o2. split; [reflexivity|exact Himp].
Qed.

(** X1.  The script makes its first call only after all five imports have
    returned, those of the names it never uses included: an execution in
    which any call was made is an execution of the module body from the
    environment the imports left, and each import of the list returned. *)
Theorem calls_only_after_all_imports inst w p o :
  st_trace (run_module inst w p o).2 <> [] ->
  exists o',
    import_all inst IMPORTS (mkState o []) = (Return tt, mkState o' []) /\
    run_module inst w p o = run w p o' /\
    forall pre module name post,
      IMPORTS = pre ++ (module, name) :: post ->
      exists o1 o2,
        import_all inst pre (mkState o []) = (Return tt, mkState o1 []) /\
        import_from inst module name o1 = (Return tt, o2).
Proof.
  rewrite run_module_eq.
  pose proof (import_all_trace inst IMPORTS o []) as Htr.
  destruct (import_all inst IMPORTS (mkState o [])) as [[[]| |] [o' tr]] eqn:Hall;
    cbn in Htr; subst tr; cbn; try congruence.
  intros _. exists o'. split; [reflexivity|]. split; [reflexivity|].
  intros pre module name post Hsplit. rewrite Hsplit in Hall.
  apply (import_all_returns_split _ _ _ _ _ _ _ Hall).
Qed.

Lemma calls_only_after_all_imports_witness :
  exists o',
    run_module full_installation (quiet_world (granting_flow sample_creds))
      plain_process sample_os =
    run (quiet_world (granting_flow sample_creds)) plain_process o'.
Proof.
  destruct (calls_only_after_all_imports full_installation
              (quiet_world (granting_flow sample_creds)) plain_process sample_os)
    as (o' & _ & H & _).
  - vm_compute. discriminate.
  - exists o'. exact H.
Defined.

(** X2.  When an import raises after the ones before it returned, the
    exception leaves the file at once: the run ends raising it, no call of
    the script has been made and the environment is what the imports left. *)
Theorem failing_import_aborts inst w p o pre module name post o1 e o2 :
  IMPORTS = pre ++ (module, name) :: post ->
  import_all inst pre (mkState o []) = (Return tt, mkState o1 []) ->
  import_from inst module name o1 = (Raise e, o2) ->
  run_module inst w p o = (Raise e, mkState o2 []).
Proof.
  intros Hsplit Hpre Himp. rewrite run_module_eq, Hsplit, import_all_app.
  unfold bind at 1. rewrite Hpre. cbn.
  unfold bind, py_import_from, lift_os; cbn. rewrite Himp. reflexivity.
Qed.

Lemma failing_import_aborts_witness :
  run_module without_api_client (quiet_world (granting_flow sample_creds))
    plain_process sample_os =
  (Raise (mkExc "ModuleNotFoundError" "No module named 'googleapiclient'"),
   mkState sample_os []).
Proof.
  apply (failing_import_aborts without_api_client _ _ _
           [("google.auth.transport.requests", "Request");
            ("google.oauth2.credentials", "Credentials");
            ("google_auth_oauthlib.flow", "InstalledAppFlow")]
           "googleapiclient.discovery" "build"
           [("googleapiclient.errors", "HttpError")] sample_os);
    reflexivity.
Defined.

(** ** Calls the script makes and does not make *)

(** The traces an execution can have, for a given credential. *)
Lemma trace_shapes w p o :
  let tr := st_trace (run w p o).2 in
  let c := CallFromClientSecretsFile "credentials.json" SCOPES in
  let r := CallRunLocalServer 0 in
  let f := CallOpen "token.json" ModeW in
  let z := CallClose "token.json" in
  (tr = [c] /\
   forall fl o1, from_client_secrets_file w p o "credentials.json" SCOPES <> (Return fl, o1)) \/
  (tr = [c; r] /\
   exists fl o1, from_client_secrets_file w p o "credentials.json" SCOPES = (Return fl, o1)) \/
  (exists creds o2 json, flow_returns w p o creds o2 /\
     (tr = [c; r; CallPrint (refresh_line creds)] \/
      tr = [c; r; CallPrint (refresh_line creds); f] \/
      tr = [c; r; CallPrint (refresh_line creds); f; CallToJson; z] \/
      tr = [c; r; CallPrint (refresh_line creds); f; CallToJson;
            CallWrite "token.json" json] \/
      tr = full_trace creds json)).
Proof.
  cbn.
  destruct (trace_cases w p o)
    as [[H Hno] | [(H & Hfl & _) | (creds & o2 & Hflow & Hcase)]]; try (cbn in H).
  - left. split; assumption.
  - right. left. split; assumption.
  - right. right.
    destruct Hcase as [[H _] | [_ [[H _] | [_ [[H _] | (json & _ & [[H _] | [H _]])]]]]];
      cbn in H.
    + exists creds, o2, EmptyString. split; [assumption|]. tauto.
    + exists creds, o2, EmptyString. split; [assumption|]. tauto.
    + exists creds, o2, EmptyString. split; [assumption|]. tauto.
    + exists creds, o2, json. split; [assumption|]. tauto.
    + exists creds, o2, json. split; [assumption|]. tauto.
Qed.

(** X3.  The consent step is only ever started with [port=0], and it is
    started exactly when the constructor returned a flow. *)
Theorem consent_on_port_zero w p o :
  (forall port, CallRunLocalServer port ∈ st_trace (run w p o).2 -> port = 0) /\
  (CallRunLocalServer 0 ∈ st_trace (run w p o).2 <->
   exists fl o1,
     from_client_secrets_file w p o "credentials.json" SCOPES = (Return fl, o1)).
Proof.
  destruct (trace_shapes w p o)
    as [[H Hno] | [(H & Hfl) | (creds & o2 & json & Hflow & Hcase)]]; try (cbn in H).
  - rewrite H. split; [intros port; trace_membership|].
    split; [trace_membership|]. intros (fl & o1 & E). destruct (Hno _ _ E).
  - rewrite H. split.
    + intros port. rewrite !elem_of_cons, elem_of_nil.
      intros [E|[E|[]]]; [discriminate|]. injection E as ->. reflexivity.
    + split; [intros _; exact Hfl|]. intros _. rewrite !elem_of_cons. tauto.
  - assert (Hfl : exists fl o1,
               from_client_secrets_file w p o "credentials.json" SCOPES = (Return fl, o1)).
    { destruct Hflow as (fl & o1 & E & _). eauto. }
    destruct Hcase as [H | [H | [H | [H | H]]]]; cbn in H; rewrite H;
      (split; [intros port; unfold full_trace; rewrite !elem_of_cons, elem_of_nil;
               intros E; repeat (destruct E as [E|E]; try discriminate);
               [injection E as ->; reflexivity|contradiction]
              |split; [intros _; exact Hfl
                      |intros _; unfold full_trace; rewrite !elem_of_cons; tauto]]).
Qed.

(** X4.  The only file the script opens, writes or closes is [token.json],
    and it only opens it in mode ['w']: in no execution does it open the
    secrets file or any other path, or open for reading or appending. *)
Theorem only_token_json_touched w p o :
  let tr := st_trace (run w p o).2 in
  (forall path mode, CallOpen path mode ∈ tr -> path = "token.json" /\ mode = ModeW) /\
  (forall path data, CallWrite path data ∈ tr -> path = "token.json") /\
  (forall path, CallClose path ∈ tr -> path = "token.json").
Proof.
  cbn.
  destruct (trace_shapes w p o)
    as [[H _] | [(H & _) | (creds & o2 & json & _ & [H | [H | [H | [H | H]]]])]];
    cbn in H; rewrite H; unfold full_trace; repeat split;
    intros; repeat match goal with
    | E : _ ∈ _ |- _ => rewrite ?elem_of_cons, ?elem_of_nil in E
    | E : _ \/ _ |- _ => destruct E as [E|E]
    | E : CallOpen _ _ = CallOpen _ _ |- _ => injection E as -> ->
    | E : CallWrite _ _ = CallWrite _ _ |- _ => injection E as -> ->
    | E : CallClose _ = CallClose _ |- _ => injection E as ->
    | E : False |- _ => destruct E
    end; try discriminate; reflexivity.
Qed.

(** X5.  The script prints nothing but the refresh-token line: whatever an
    execution printed through [print] is the line of the credential the flow
    returned.  No progress or error message is ever printed. *)
Theorem prints_only_refresh_line w p o text :
  CallPrint text ∈ st_trace (run w p o).2 ->
  exists creds o2, flow_returns w p o creds o2 /\ text = refresh_line creds.
Proof.
  destruct (trace_shapes w p o)
    as [[H _] | [(H & _) | (creds & o2 & json & Hflow & Hcase)]]; try (cbn in H).
  - rewrite H. trace_membership.
  - rewrite H. trace_membership.
  - intros Hin. exists creds, o2. split; [assumption|].
    destruct Hcase as [H | [H | [H | [H | H]]]]; cbn in H; rewrite H in Hin;
      unfold full_trace in Hin; rewrite !elem_of_cons, elem_of_nil in Hin;
      repeat (destruct Hin as [Hin|Hin]; try discriminate);
      try contradiction; injection Hin as ->; reflexivity.
Qed.

Lemma prints_only_refresh_line_witness :
  exists creds o2,
    flow_returns (readonly_world (granting_flow sample_creds)) plain_process sample_os
      creds o2 /\
    "Refresh Token: 1//0gLq" +:+ newline = refresh_line creds.
Proof.
  apply (prints_only_refresh_line (readonly_world (granting_flow sample_creds))
           plain_process sample_os).
  rewrite (proj2 readonly_run), !elem_of_cons. tauto.
Defined.

(** ** What a failed save leaves behind *)

(** X6.  The refresh token is printed before the save is attempted, so it
    reaches standard output whatever happens to the file: once the flow has
    returned and [print] succeeded, the output ends with the line and gains
    nothing after it, whether [open], the serialization, the write or the
    close fails or not. *)
Theorem token_printed_even_if_save_fails w p o creds o2 :
  flow_returns w p o creds o2 ->
  print_fault w p (refresh_line creds) = None ->
  stdout (st_os (run w p o).2) = stdout o2 +:+ refresh_line creds.
Proof.
  intros (fl & o1 & H1 & H2) Hp.
  rewrite run_eq; cbn. rewrite H1, H2, Hp, save_block_eq; cbn. unfold after_close.
  destruct (open_fault w p "token.json" ModeW); [reflexivity|].
  destruct (to_json creds) as [e|json].
  { destruct (close_fault w p "token.json") as [[[e'|] n]|]; reflexivity. }
  destruct (write_fault w p "token.json" json) as [[[e|] n]|]; try reflexivity;
    destruct (close_fault w p "token.json") as [[[e'|] m]|]; reflexivity.
Qed.

Lemma token_printed_even_if_save_fails_witness :
  stdout (st_os (run (readonly_world (granting_flow sample_creds)) plain_process sample_os).2)
  = prompt +:+ "Refresh Token: 1//0gLq" +:+ newline.
Proof.
  refine (token_printed_even_if_save_fails
            (readonly_world (granting_flow sample_creds)) plain_process sample_os
            sample_creds (after_print sample_os prompt) _ eq_refl).
  exists (granting_flow sample_creds), sample_os. split; reflexivity.
Defined.

(** X7.  The file is emptied before the credential is serialized, and what
    it held does not come back.  Once [open] has returned, whatever the
    serialization, the write and the close do and whatever the file held
    before, [token.json] ends up holding an initial part of the serialized
    credential: nothing at all when the serialization raises, what the
    write accepted and the close flushed otherwise. *)
Theorem failed_save_loses_old_token w p o creds o2 :
  flow_returns w p o creds o2 ->
  print_fault w p (refresh_line creds) = None ->
  open_fault w p "token.json" ModeW = None ->
  exists s,
    files (st_os (run w p o).2) !! "token.json" = Some s /\
    (forall e, to_json creds = inl e -> s = EmptyString) /\
    (forall json, to_json creds = inr json -> is_prefix s json).
Proof.
  intros (fl & o1 & H1 & H2) Hp Ho.
  rewrite run_eq; cbn. rewrite H1, H2, Hp, save_block_eq; cbn. rewrite Ho.
  assert (Hclose : forall o' buffer,
            exists s, files (after_close w p o' buffer) !! "token.json" = Some s /\
                      is_prefix s buffer).
  { intros o' buffer. unfold after_close.
    destruct (close_fault w p "token.json") as [[[e'|] n]|]; cbn;
      rewrite lookup_insert_eq; eexists; (split; [reflexivity|]);
      auto using take_str_prefix, is_prefix_refl. }
  destruct (to_json creds) as [e|json]; cbn.
  - destruct (Hclose (after_print o2 (refresh_line creds)) EmptyString) as (s & Hs & [r Hr]).
    exists s. split; [exact Hs|]. split; [|discriminate].
    intros _ _. destruct s; [reflexivity|discriminate].
  - destruct (write_fault w p "token.json" json) as [[[e|] n]|]; cbn.
    + destruct (Hclose (after_print o2 (refresh_line creds)) (take_str n json))
        as (s & Hs & Hpre).
      exists s. split; [exact Hs|]. split; [discriminate|].
      intros json' [= <-]. apply (is_prefix_trans _ _ _ Hpre), take_str_prefix.
    + exists EmptyString. split; [apply lookup_insert_eq|]. split; [reflexivity|].
      intros json' _. apply is_prefix_empty.
    + destruct (Hclose (after_print o2 (refresh_line creds)) json) as (s & Hs & Hpre).
      exists s. split; [exact Hs|]. split; [discriminate|].
      intros json' [= <-]. exact Hpre.
Qed.

Lemma failed_save_loses_old_token_witness :
  exists s,
    files (st_os (run (io_error_world (granting_flow sample_creds)) plain_process sample_os).2)
      !! "token.json" = Some s /\
    is_prefix s sample_json.
Proof.
  destruct (failed_save_loses_old_token
              (io_error_world (granting_flow sample_creds)) plain_process sample_os
              sample_creds (after_print sample_os prompt)) as (s & Hs & _ & Hpre).
  - exists (granting_flow sample_creds), sample_os. split; reflexivity.
  - reflexivity.
  - reflexivity.
  - exists s. split; [exact Hs|]. apply Hpre. reflexivity.
Defined.

(** ** Files under a library that only reads them *)




(** ** How a run ends *)

(** X11.  A run returns exactly when all seven calls return: the two calls
    of the flow, [print], [open], the serialization, the write and the
    close.  Any other execution ends raising or blocked. *)
Theorem run_returns_iff w p o :
  (run w p o).1 = Return tt <->
  exists creds o2 json,
    flow_returns w p o creds o2 /\
    print_fault w p (refresh_line creds) = None /\
    open_fault w p "token.json" ModeW = None /\
    to_json creds = inr json /\
    write_fault w p "token.json" json = None /\
    close_fault w p "token.json" = None.
Proof.
  split.
  - intros H. destruct (run w p o) as [r st] eqn:Hrun. cbn in H. subst r.
    destruct (run_Return_inv _ _ _ _ Hrun)
      as (creds & o2 & json & Hflow & Hp & Ho & Hj & Hw & Hc & _).
    exists creds, o2, json. repeat split; assumption.
  - intros (creds & o2 & json & Hflow & Hp & Ho & Hj & Hw & Hc).
    rewrite (run_success _ _ _ _ _ _ Hflow Hp Ho Hj Hw Hc). reflexivity.
Qed.
